(** * Company news monitoring agent: the search adapter and the HTTP handler

    A shallow embedding of [upsonicai.py]: the Serper search adapter
    [SerpAPITool.search] and the FastAPI handler [get_company_news], together
    with the properties of their contract.

    The program talks to three collaborators that are not part of it: the
    process environment, the upstream search service reached through
    [requests.post], and the agent runtime.  They are modelled as components
    of an explicit world (the first two) and as a parameter of the handler
    (the third); every outbound request and every agent invocation is
    recorded in a log, so that "no network call" and "the agent is never
    invoked" are statements about that log. *)

From stdpp Require Import gmap strings list fin_maps.
From Stdlib Require Import ZArith.

Local Open Scope Z_scope.
Local Open Scope string_scope.

(** ** Values decoded from JSON

    What [response.json()] and the request-body decoder hand to the program:
    Python's [None], [bool], numbers, [str], [list] and [dict] with string
    keys.  A decoded dict has one value per key, hence a finite map.  Of a
    number the program only ever needs to know that it is neither a string
    nor a container, so integers stand for all finite ones; the decoder also
    accepts [NaN], [Infinity] and [-Infinity], which an encoder that is told
    to be strict refuses to write back. *)

#[warnings="-register-all"]
Inductive json : Type :=
  | JNull
  | JBool (b : bool)
  | JNumber (n : Z)
  | JNonFinite
  | JString (s : string)
  | JArray (l : list json)
  | JObject (d : gmap string json).

(** ** Exceptions *)

Inductive exn : Type :=
  | HTTPException (status_code : Z) (detail : string)
  | AttributeError (msg : string)
  | TypeError (msg : string)
  | JSONDecodeError
  | ValidationError (model : string)
  | RequestException (msg : string)
  | AgentError (msg : string).

Inductive result (A : Type) : Type :=
  | Ok (a : A)
  | Raise (e : exn).
Arguments Ok {A} a.
Arguments Raise {A} e.

(** ** The world: environment, upstream service, log of effects *)

Record http_request := mk_request {
  req_url : string;
  req_headers : list (string * string);
  req_data : json  (* the value passed to [json.dumps] *)
}.

(** A response of the upstream service as [requests] presents it:
    [status_code], the raw body [text], and what [json()] decodes the body
    to ([None] when the body is not JSON, in which case [json()] raises). *)
Record http_response := mk_response {
  status_code : Z;
  text : string;
  json_body : option json
}.

Record Task := mk_task {
  description : string;
  tools : list string;
  response_format : string
}.

Inductive event : Type :=
  | EvPost (r : http_request)
  | EvAgentDo (t : Task).

Record world := mk_world {
  environ : gmap string string;
  upstream : http_request → result http_response;
  log : list event
}.

Definition record (e : event) (w : world) : world :=
  {| environ := environ w; upstream := upstream w; log := log w ++ [e] |}.

(** ** Computations: state passing over the world, with exceptions *)

Definition M (A : Type) : Type := world → result A * world.

Definition ret {A} (a : A) : M A := λ w, (Ok a, w).
Definition raise {A} (e : exn) : M A := λ w, (Raise e, w).
Definition bind {A B} (m : M A) (k : A → M B) : M B :=
  λ w, match m w with
       | (Ok a, w') => k a w'
       | (Raise e, w') => (Raise e, w')
       end.

#[global] Instance M_ret : MRet M := @ret.
#[global] Instance M_bind : MBind M := λ A B k m, bind m k.

(** [os.getenv(name)] *)
Definition os_getenv (name : string) : M (option string) :=
  λ w, (Ok (environ w !! name), w).

(** [requests.post(url, headers=headers, data=payload)]: one outbound
    request, recorded in the log; the upstream answers or the transport
    raises. *)
Definition requests_post (url : string) (headers : list (string * string))
    (payload : json) : M http_response :=
  λ w, let r := mk_request url headers payload in
       (upstream w r, record (EvPost r) w).

(** [response.json()] *)
Definition response_json (r : http_response) : M json :=
  match json_body r with
  | Some v => ret v
  | None => raise JSONDecodeError
  end.

(** ** Python operations on decoded values *)

(** Truth value of [os.getenv]'s result: [None] and [""] are false. *)
Definition truthy_str (o : option string) : bool :=
  match o with
  | None => false
  | Some s => negb (String.eqb s "")
  end.

(** [v.get(key, default)]: defined on dicts only. *)
Definition py_get (v : json) (key : string) (dflt : json) : M json :=
  match v with
  | JObject d => ret (default dflt (d !! key))
  | _ => raise (AttributeError "get")
  end.

Fixpoint chars (s : string) : list json :=
  match s with
  | EmptyString => []
  | String c s' => JString (String c EmptyString) :: chars s'
  end.

(** [v[:n]], as the sequence the comprehension then iterates over: lists and
    strings can be sliced, nothing else that JSON decodes to can. *)
Definition py_slice_to (n : nat) (v : json) : M (list json) :=
  match v with
  | JArray l => ret (take n l)
  | JString s => ret (take n (chars s))
  | _ => raise (TypeError "slice")
  end.

(** ** The response models *)

Record News := mk_News {
  title : string;
  url : string;
  snippet : string
}.

Record NewsResponse := mk_NewsResponse {
  articles : list News
}.

(** Validation of a [str] field: a string is accepted, nothing else that
    JSON decodes to is (no coercion of numbers to [str]). *)
Definition as_str (v : json) : option string :=
  match v with
  | JString s => Some s
  | _ => None
  end.

(** [News(title=t, url=u, snippet=s)] *)
Definition News_new (t u s : json) : M News :=
  match as_str t, as_str u, as_str s with
  | Some t', Some u', Some s' => ret (mk_News t' u' s')
  | _, _, _ => raise (ValidationError "News")
  end.

(** ** [SerpAPITool.search] *)

Module SerpAPITool.

(** One element of the comprehension. *)
Definition build (result : json) : M News :=
  t ← py_get result "title" (JString "No Title");
  u ← py_get result "link" (JString "#");
  s ← py_get result "snippet" (JString "No Description");
  News_new t u s.

Definition search (query : string) : M (list News) :=
  api_key ← os_getenv "SERPAPI_API_KEY";
  if negb (truthy_str api_key) then
    raise (HTTPException 500 "SerpAPI API Key not found!")
  else
    let url := "https://google.serper.dev/search" in
    let headers := [("X-API-KEY", default "" api_key);
                    ("Content-Type", "application/json")] in
    let payload := JObject {[ "q" := JString query ]} in
    response ← requests_post url headers payload;
    if (status_code response =? 200)%Z then
      data ← response_json response;
      search_results ← py_get data "organic" (JArray []);
      first10 ← py_slice_to 10 search_results;
      mapM build first10
    else
      raise (HTTPException 500
               ("SerpAPI Request Failed: " +:+ text response)).

End SerpAPITool.

(** ** The endpoint [POST /get-company-news/] *)

(** Input model: company name. *)
Record CompanyInput := mk_CompanyInput {
  company_name : string
}.

(** The dict the handler returns: its ["company_name"] and ["articles"]
    entries. *)
Record NewsReport := mk_NewsReport {
  report_company_name : string;
  report_articles : list News
}.

(** [news_task = Task(description=..., tools=[Search, SerpAPITool],
    response_format=NewsResponse)] *)
Definition news_task (input_data : CompanyInput) : Task :=
  {| description :=
       "Fetch the latest news about " +:+ company_name input_data +:+ ".";
     tools := ["Search"; "SerpAPITool"];
     response_format := "NewsResponse" |}.

(** Truth value of [news_task.response]: [None] is false, a model instance
    (which defines neither [__bool__] nor [__len__]) is true. *)
Definition truthy_response (o : option NewsResponse) : bool :=
  match o with
  | None => false
  | Some _ => true
  end.

(** What the framework sends back. *)
Inductive http_reply : Type :=
  | Reply200 (report : NewsReport)
  | Reply422
  | ReplyError (status : Z) (detail : string)
  | ReplyInternalServerError.

(** Request-schema validation of the body against [CompanyInput]: the body
    must decode to an object with a string under ["company_name"]; the model
    puts no further constraint on that string, and other keys are ignored. *)
Definition CompanyInput_validate (body : option json) : option CompanyInput :=
  match body with
  | Some (JObject d) =>
      match d !! "company_name" with
      | Some (JString s) => Some (mk_CompanyInput s)
      | _ => None
      end
  | _ => None
  end.

(** The value holds a number that strict JSON cannot express. *)
Fixpoint non_finite (v : json) : bool :=
  match v with
  | JNonFinite => true
  | JArray l => existsb non_finite l
  | JObject d => map_fold (λ _ x found, non_finite x || found) false d
  | _ => false
  end.

(** What the validation error reports as its input: the whole body when it
    is not an object or lacks ["company_name"], the value found under
    ["company_name"] when that is not a string; nothing when there is no
    decodable body. *)
Definition rejected_input (body : option json) : option json :=
  match body with
  | Some (JObject d) =>
      match d !! "company_name" with
      | Some v => Some v
      | None => Some (JObject d)
      end
  | Some v => Some v
  | None => None
  end.

(** The reply to a body that fails validation.  It is a 422 whose content
    repeats the reported input; the content is encoded strictly, so when
    that input holds a non-finite number the encoding raises and the reply
    is an internal server error instead. *)
Definition validation_reply (body : option json) : http_reply :=
  if from_option non_finite false (rejected_input body)
  then ReplyInternalServerError
  else Reply422.

Section Handler.

(** The agent runtime: what [news_agent.do(task)] does to the world (it may
    call its tools, among them [SerpAPITool.search], any number of times, or
    raise) and what [task.response] holds afterwards. *)
Variable agent : Task → M (option NewsResponse).

(** [news_agent.do(news_task)] followed by [news_task.response] *)
Definition agent_do (t : Task) : M (option NewsResponse) :=
  λ w, agent t (record (EvAgentDo t) w).

Definition get_company_news (input_data : CompanyInput) : M NewsReport :=
  let search_query := "Latest news about " +:+ company_name input_data in
  let news_task := news_task input_data in
  news_data ← agent_do news_task;
  if negb (truthy_response news_data) then
    raise (HTTPException 500 "Failed to fetch company news.")
  else
    match news_data with
    | Some news_data =>
        ret {| report_company_name := company_name input_data;
               report_articles := articles news_data |}
    | None => raise (AttributeError "articles")
    end.

(** The route: validation of the body first, with [validation_reply] for a
    body that fails it, then the handler; an [HTTPException] becomes a reply
    with its status and detail, any other exception an internal server
    error. *)
Definition post_get_company_news (body : option json) (w : world)
    : http_reply * world :=
  match CompanyInput_validate body with
  | None => (validation_reply body, w)
  | Some input_data =>
      match get_company_news input_data w with
      | (Ok report, w') => (Reply200 report, w')
      | (Raise (HTTPException status detail), w') =>
          (ReplyError status detail, w')
      | (Raise _, w') => (ReplyInternalServerError, w')
      end
  end.

End Handler.

(** ** Auxiliary notions used in the statements *)

(** The request [search] sends for a given key and query. *)
Definition serper_request (api_key query : string) : http_request :=
  mk_request "https://google.serper.dev/search"
    [("X-API-KEY", api_key); ("Content-Type", "application/json")]
    (JObject {[ "q" := JString query ]}).

(** The environment holds a usable key. *)
Definition has_key (w : world) (api_key : string) : Prop :=
  environ w !! "SERPAPI_API_KEY" = Some api_key ∧ api_key ≠ "".

(** The upstream answers the request of [search] with [r]. *)
Definition answers (w : world) (api_key query : string) (r : http_response)
    : Prop :=
  upstream w (serper_request api_key query) = Ok r.

(** The result list of a decoded body: its ["organic"] entry, or the empty
    list when there is none. *)
Definition result_list (d : gmap string json) : json :=
  default (JArray []) (d !! "organic").

(** [a] is the article the comprehension builds from [e]. *)
Definition built_from (e : json) (a : News) : Prop :=
  ∀ w, SerpAPITool.build e w = (Ok a, w).

(** The outcome of [build] on a dict, as a value. *)
Definition built (d : gmap string json) : result News :=
  match as_str (default (JString "No Title") (d !! "title")),
        as_str (default (JString "#") (d !! "link")),
        as_str (default (JString "No Description") (d !! "snippet")) with
  | Some t, Some u, Some s => Ok (mk_News t u s)
  | _, _, _ => Raise (ValidationError "News")
  end.

(** A field of an entry is usable: absent, or a string. *)
Definition field_ok (d : gmap string json) (key : string) : bool :=
  match d !! key with
  | None | Some (JString _) => true
  | Some _ => false
  end.

(** An entry of the result list as the search service documents it: an
    object whose title, link and snippet, when present, are strings. *)
Definition is_entry (e : json) : bool :=
  match e with
  | JObject d => field_ok d "title" && field_ok d "link" && field_ok d "snippet"
  | _ => false
  end.

(** An entry supplies no empty string for [key]. *)
Definition supplies_nonempty (e : json) (key : string) : Prop :=
  ∀ d, e = JObject d → d !! key ≠ Some (JString "").

Definition fully_populated (a : News) : Prop :=
  title a ≠ "" ∧ url a ≠ "" ∧ snippet a ≠ "".

(** [t] occurs in [s]. *)
Definition contains (s t : string) : Prop :=
  ∃ pre post, s = pre +:+ t +:+ post.

(** ** Stubs for the collaborators, used in the examples *)

Module Stub.

(** A world with no key and no reachable upstream. *)
Definition idle_world : world :=
  {| environ := ∅; upstream := λ _, Raise (RequestException "offline");
     log := [] |}.

(** An upstream that answers every request with the same response. *)
Definition world_of (key : option string) (r : http_response) : world :=
  {| environ := match key with
                | Some k => {[ "SERPAPI_API_KEY" := k ]}
                | None => ∅
                end;
     upstream := λ _, Ok r;
     log := [] |}.

Definition ok_body (rs : list json) : http_response :=
  mk_response 200 "{}" (Some (JObject {[ "organic" := JArray rs ]})).

Definition entry (t u s : string) : json :=
  JObject {[ "title" := JString t; "link" := JString u;
             "snippet" := JString s ]}.

Definition item (n : string) : json :=
  entry ("t" +:+ n) ("https://example.org/" +:+ n) ("s" +:+ n).

Definition article (n : string) : News :=
  mk_News ("t" +:+ n) ("https://example.org/" +:+ n) ("s" +:+ n).

Definition twelve : list string :=
  ["a"; "b"; "c"; "d"; "e"; "f"; "g"; "h"; "i"; "j"; "k"; "l"].

(** An agent that answers without using any tool. *)
Definition fixed_agent (r : option NewsResponse)
    : Task → M (option NewsResponse) :=
  λ _, mret r.

(** An agent that runs the search adapter once, on the task description,
    and hands back what it found. *)
Definition relay_agent : Task → M (option NewsResponse) :=
  λ t, found ← SerpAPITool.search (description t);
       mret (Some (mk_NewsResponse found)).

Definition body_of (name : string) : option json :=
  Some (JObject {[ "company_name" := JString name ]}).

(** Twelve results upstream. *)
Definition twelve_world : world :=
  world_of (Some "secret") (ok_body (item <$> twelve)).

(** One result upstream, without a link. *)
Definition linkless : gmap string json :=
  {[ "title" := JString "Acme grows"; "snippet" := JString "Record year" ]}.

Definition linkless_world : world :=
  world_of (Some "secret") (ok_body [JObject linkless]).

(** One result upstream, with an empty title. *)
Definition untitled : gmap string json :=
  {[ "title" := JString ""; "link" := JString "https://example.org/x" ]}.

Definition untitled_world : world :=
  world_of (Some "secret") (ok_body [JObject untitled]).

(** The upstream is down. *)
Definition unavailable : http_response :=
  mk_response 503 "Service Unavailable" None.

Definition down_world : world := world_of (Some "secret") unavailable.

(** The upstream answers 200 with an object that has no result list. *)
Definition bare : http_response :=
  mk_response 200 "{}" (Some (JObject ∅)).

Definition bare_world : world := world_of (Some "secret") bare.

(** The upstream answers 201 with results. *)
Definition created : http_response :=
  mk_response 201 "created" (Some (JObject {[ "organic" := JArray [] ]})).

(** Eleven articles. *)
Definition eleven : NewsResponse :=
  mk_NewsResponse (article <$> take 11 twelve).

End Stub.

(** ** The page script [fetchCompanyNews]

    The script that [serve_ui] ships inside the page.  One click, run to
    completion against this server: the page reads its input box, posts the
    company name to the route, decodes the reply and rewrites the results
    container.  The page is the input box and the container; the promise the
    function returns is fulfilled or rejected. *)

Record page := mk_page {
  company : string;   (* [document.getElementById('company').value] *)
  results : string    (* [document.getElementById('results').innerHTML] *)
}.

Inductive js_error : Type :=
  | JsTypeError
  | JsSyntaxError.

Inductive promise : Type :=
  | Fulfilled
  | Rejected (e : js_error).

(** The double quote character, which the markup below needs. *)
Definition dquote : string :=
  String (Ascii.Ascii false true false false false true false false)
    EmptyString.

(** The body of the [forEach] callback: two appends to [resultsHTML]. *)
Definition append_article (resultsHTML : string) (article : News) : string :=
  let resultsHTML :=
    resultsHTML +:+ ("<p><strong>" +:+ title article +:+ "</strong><br>") in
  resultsHTML +:+
    ("<a href=" +:+ dquote +:+ url article +:+ dquote +:+ " target=" +:+
     dquote +:+ "_blank" +:+ dquote +:+ ">Read More</a></p>").

(** [let resultsHTML = "<h2>Latest Articles:</h2>"; data.articles.forEach(...)] *)
Definition render (articles : list News) : string :=
  foldl append_article "<h2>Latest Articles:</h2>" articles.

(** [JSON.stringify({ company_name: company })], as the route decodes it. *)
Definition stringify_company (company : string) : option json :=
  Some (JObject {[ "company_name" := JString company ]}).

Section Page.

Variable agent : Task → M (option NewsResponse).

(** A report decodes to an object with an [articles] array, which is
    rendered.  An error reply decodes to an object that has a [detail] and no
    [articles], so [data.articles.forEach] throws; the body of an internal
    server error is not JSON, so [response.json()] rejects.  Either way the
    assignment to [innerHTML] is not reached. *)
Definition fetchCompanyNews (p : page) (w : world) : promise * page * world :=
  let company := company p in
  let '(response, w') :=
    post_get_company_news agent (stringify_company company) w in
  match response with
  | Reply200 data =>
      let resultsHTML := render (report_articles data) in
      (Fulfilled, {| company := company; results := resultsHTML |}, w')
  | Reply422 | ReplyError _ _ => (Rejected JsTypeError, p, w')
  | ReplyInternalServerError => (Rejected JsSyntaxError, p, w')
  end.

End Page.

(** ** Further notions used in the statements *)

(** The article the specification describes for an entry, written from its
    words and not from [build]: the title, link and snippet the entry
    supplies, each replaced by its fixed placeholder when the entry has
    none.  (It is compared with [build] on entries only, whose supplied
    fields are strings.) *)
Definition spec_field (d : gmap string json) (key placeholder : string)
    : string :=
  match d !! key with
  | Some (JString s) => s
  | _ => placeholder
  end.

Definition spec_article (d : gmap string json) : News :=
  {| title := spec_field d "title" "No Title";
     url := spec_field d "link" "#";
     snippet := spec_field d "snippet" "No Description" |}.


(** A computation that neither reads the world nor changes it. *)
Definition reads_nothing {A} (m : M A) : Prop :=
  ∃ res, ∀ w, m w = (res, w).

(** What [search] does with the response once it has one: the conditional
    that follows [requests.post]. *)
Definition answered (response : http_response) : M (list News) :=
  if (status_code response =? 200)%Z then
    data ← response_json response;
    search_results ← py_get data "organic" (JArray []);
    first10 ← py_slice_to 10 search_results;
    mapM SerpAPITool.build first10
  else
    raise (HTTPException 500
             ("SerpAPI Request Failed: " +:+ text response)).

(** The markup one article contributes to the results container, and the
    markup of a list of articles, one after the other. *)
Definition article_markup (article : News) : string :=
  ("<p><strong>" +:+ title article +:+ "</strong><br>") +:+
  ("<a href=" +:+ dquote +:+ url article +:+ dquote +:+ " target=" +:+
   dquote +:+ "_blank" +:+ dquote +:+ ">Read More</a></p>").

Definition markup_all (articles : list News) : string :=
  foldr (λ article rest, article_markup article +:+ rest) "" articles.

(** ** Further stubs for the examples *)

Module Sample.

(** Ten results upstream: the first ten of the twelve. *)
Definition ten_world : world :=
  Stub.world_of (Some "secret") (Stub.ok_body (Stub.item <$> take 10 Stub.twelve)).

(** The key is there but empty. *)
Definition empty_key_world : world := Stub.world_of (Some "") Stub.bare.

(** The transport fails. *)
Definition offline_world : world :=
  {| environ := {[ "SERPAPI_API_KEY" := "secret" ]};
     upstream := λ _, Raise (RequestException "offline");
     log := [] |}.

(** A 200 answer whose body is not JSON. *)
Definition garbled : http_response := mk_response 200 "<html>" None.

Definition garbled_world : world := Stub.world_of (Some "secret") garbled.

(** A 200 answer whose body is a JSON list. *)
Definition listed : http_response :=
  mk_response 200 "[]" (Some (JArray [])).

Definition listed_world : world := Stub.world_of (Some "secret") listed.

(** An entry with fields the adapter does not read. *)
Definition annotated : gmap string json :=
  <[ "position" := JNumber 1 ]> (<[ "date" := JString "today" ]> Stub.linkless).

(** An article whose title is markup. *)
Definition scripted : News :=
  mk_News "<script>alert(1)</script>" "https://example.org/x" "s".

(** The fields of the stub items, and a result whose title is [null]. *)
Definition item_fields (n : string) : gmap string json :=
  {[ "title" := JString ("t" +:+ n);
     "link" := JString ("https://example.org/" +:+ n);
     "snippet" := JString ("s" +:+ n) ]}.

Definition null_title_world : world :=
  Stub.world_of (Some "secret")
    (Stub.ok_body [JObject {[ "title" := JNull;
                              "link" := JString "https://example.org/x" ]}]).

(** Bodies that fail validation and hold a number strict JSON cannot
    express. *)
Definition nan_name : option json :=
  Some (JObject {[ "company_name" := JNonFinite ]}).

Definition nan_elsewhere : option json :=
  Some (JObject {[ "limit" := JArray [JNumber 1; JNonFinite] ]}).

Definition blank_page : page := mk_page "Acme" "".

Definition stale_page : page := mk_page "Acme" "<h2>Latest Articles:</h2>old".

End Sample.

(** * Properties *)

(** ** Strings *)

Lemma append_empty_r (s : string) : s +:+ "" = s.
Proof.
  induction s as [|c s IH]; [reflexivity |].
  change (String c (s +:+ "") = String c s). by rewrite IH.
Qed.

Lemma contains_suffix (pre t : string) : contains (pre +:+ t) t.
Proof. exists pre, "". by rewrite append_empty_r. Qed.

(** ** Running a computation *)

Lemma bind_ok {A B} (m : M A) (k : A → M B) w a w' :
  m w = (Ok a, w') → (m ≫= k) w = k a w'.
Proof. intros Hm. unfold mbind, M_bind, bind. by rewrite Hm. Qed.

Lemma bind_raise {A B} (m : M A) (k : A → M B) w e w' :
  m w = (Raise e, w') → (m ≫= k) w = (Raise e, w').
Proof. intros Hm. unfold mbind, M_bind, bind. by rewrite Hm. Qed.

Lemma bind_inv_ok {A B} (m : M A) (k : A → M B) w b w2 :
  (m ≫= k) w = (Ok b, w2) →
  ∃ a w1, m w = (Ok a, w1) ∧ k a w1 = (Ok b, w2).
Proof.
  unfold mbind, M_bind, bind.
  destruct (m w) as [[a|e] w1]; [eauto | discriminate].
Qed.

(** ** The comprehension *)

Section Comprehension.

Import SerpAPITool.

(** What [build] computes from a dict, with the world left alone. *)
Lemma build_object d w : build (JObject d) w = (built d, w).
Proof.
  unfold build, built, News_new.
  repeat (erewrite bind_ok; [| reflexivity]).
  unfold default.
  destruct (d !! "title") as [[]|], (d !! "link") as [[]|],
    (d !! "snippet") as [[]|]; reflexivity.
Qed.

Lemma build_other e w :
  (∀ d, e ≠ JObject d) → build e w = (Raise (AttributeError "get"), w).
Proof. intros He. destruct e; try reflexivity. by destruct (He d). Qed.

(** [build] reads nothing from the world and leaves it as it was. *)
Lemma build_pure e : ∃ r, ∀ w, build e w = (r, w).
Proof.
  destruct e; try (eexists; intros w; reflexivity).
  exists (built d). intros w. apply build_object.
Qed.

Lemma build_ok_built_from e a w w' :
  build e w = (Ok a, w') → built_from e a.
Proof.
  intros Hb. destruct (build_pure e) as [r Hr].
  rewrite Hr in Hb. injection Hb as -> _. exact Hr.
Qed.

Lemma is_entry_built e :
  is_entry e = true → ∃ a, built_from e a.
Proof.
  destruct e as [| | | | | |d]; try discriminate. cbn.
  intros H. apply andb_prop in H as [H Hs]. apply andb_prop in H as [Ht Hu].
  unfold field_ok in *. unfold built_from.
  setoid_rewrite build_object. unfold built.
  destruct (d !! "title") as [[]|]; try discriminate;
  destruct (d !! "link") as [[]|]; try discriminate;
  destruct (d !! "snippet") as [[]|]; try discriminate; cbn; eauto.
Qed.

(** What a successful run of the comprehension returns. *)
Lemma mapM_build_inv l : ∀ arts w w',
  mapM build l w = (Ok arts, w') → w' = w ∧ Forall2 built_from l arts.
Proof.
  induction l as [|e l IH]; intros arts w w' Hrun; cbn in Hrun.
  - injection Hrun as <- <-. split; [done | constructor].
  - apply bind_inv_ok in Hrun as (a & w1 & Ha & Hrun).
    apply bind_inv_ok in Hrun as (rest & w2 & Hrest & Hret).
    injection Hret as <- <-.
    pose proof (build_ok_built_from _ _ _ _ Ha) as Hb.
    rewrite Hb in Ha. injection Ha as <-.
    apply IH in Hrest as [-> Hall]. split; [done | by constructor].
Qed.

(** The comprehension succeeds on entries. *)
Lemma mapM_build_entries l :
  Forall (λ e, is_entry e = true) l →
  ∃ arts, ∀ w, mapM build l w = (Ok arts, w).
Proof.
  induction 1 as [|e l He _ [arts IH]].
  - exists []. done.
  - apply is_entry_built in He as [a Ha].
    exists (a :: arts). intros w. cbn.
    erewrite bind_ok; [| apply Ha].
    erewrite bind_ok; [| apply IH]. done.
Qed.

End Comprehension.

(** ** The paths through [search] *)

Section SearchPaths.

Import SerpAPITool.

Lemma has_key_truthy w key :
  has_key w key → truthy_str (environ w !! "SERPAPI_API_KEY") = true.
Proof.
  intros [-> Hne]. cbn. apply negb_true_iff, String.eqb_neq, Hne.
Qed.

(** Without a usable key nothing happens but the exception. *)
Lemma search_no_key query w :
  truthy_str (environ w !! "SERPAPI_API_KEY") = false →
  search query w = (Raise (HTTPException 500 "SerpAPI API Key not found!"), w).
Proof.
  intros Hk. unfold search.
  erewrite bind_ok; [| reflexivity]. by rewrite Hk.
Qed.

(** With a key, one request goes out and the answer decides. *)
Lemma search_answered query w key r :
  has_key w key → answers w key query r →
  search query w =
    (if (status_code r =? 200)%Z then
       data ← response_json r;
       search_results ← py_get data "organic" (JArray []);
       first10 ← py_slice_to 10 search_results;
       mapM build first10
     else
       raise (HTTPException 500 ("SerpAPI Request Failed: " +:+ text r)))
    (record (EvPost (serper_request key query)) w).
Proof.
  intros Hk Ha. pose proof (has_key_truthy _ _ Hk) as Ht.
  destruct Hk as [Hk _]. unfold search.
  erewrite bind_ok; [| reflexivity]. rewrite Ht, Hk. cbn [negb default].
  erewrite bind_ok; [reflexivity |].
  unfold requests_post. cbn zeta. fold (serper_request key query).
  by rewrite Ha.
Qed.

(** A 200 answer that decodes to a dict with a list of results. *)
Lemma search_200 query w key r d rs :
  has_key w key → answers w key query r →
  status_code r = 200 → json_body r = Some (JObject d) →
  result_list d = JArray rs →
  search query w =
    mapM build (take 10 rs) (record (EvPost (serper_request key query)) w).
Proof.
  intros Hk Ha Hs Hd Hrs.
  rewrite (search_answered _ _ _ _ Hk Ha), Hs. cbn [Z.eqb Pos.eqb].
  unfold response_json. rewrite Hd.
  erewrite bind_ok; [| reflexivity].
  erewrite bind_ok; [| reflexivity].
  unfold result_list in Hrs. rewrite Hrs.
  erewrite bind_ok; [| reflexivity]. done.
Qed.

(** What comes back on that path is built, place by place, from the first
    ten results. *)
Lemma search_200_inv query w key r d rs arts w' :
  has_key w key → answers w key query r →
  status_code r = 200 → json_body r = Some (JObject d) →
  result_list d = JArray rs →
  search query w = (Ok arts, w') →
  Forall2 built_from (take 10 rs) arts.
Proof.
  intros Hk Ha Hs Hd Hrs.
  rewrite (search_200 _ _ _ _ _ _ Hk Ha Hs Hd Hrs).
  intros Hrun. by apply mapM_build_inv in Hrun as [_ Hall].
Qed.

Lemma search_not_200 query w key r :
  has_key w key → answers w key query r → status_code r ≠ 200 →
  search query w =
    (Raise (HTTPException 500 ("SerpAPI Request Failed: " +:+ text r)),
     record (EvPost (serper_request key query)) w).
Proof.
  intros Hk Ha Hs. rewrite (search_answered _ _ _ _ Hk Ha).
  by apply Z.eqb_neq in Hs as ->.
Qed.

End SearchPaths.

(** ** What [build] puts in each field *)

Lemma built_from_object d a : built_from (JObject d) a → built d = Ok a.
Proof.
  intros Hb. specialize (Hb Stub.idle_world).
  rewrite build_object in Hb. congruence.
Qed.


Lemma built_from_is_object e a : built_from e a → ∃ d, e = JObject d.
Proof.
  intros Hb. specialize (Hb Stub.idle_world).
  destruct e; try discriminate. eauto.
Qed.

Lemma built_populated e a :
  built_from e a →
  supplies_nonempty e "title" → supplies_nonempty e "link" →
  supplies_nonempty e "snippet" →
  fully_populated a.
Proof.
  intros Hb Ht Hu Hs.
  destruct (built_from_is_object _ _ Hb) as [d ->].
  apply built_from_object in Hb.
  specialize (Ht d eq_refl). specialize (Hu d eq_refl).
  specialize (Hs d eq_refl). revert Hb. unfold built.
  destruct (d !! "title") as [[]|]; try discriminate;
  destruct (d !! "link") as [[]|]; try discriminate;
  destruct (d !! "snippet") as [[]|]; try discriminate; cbn;
  intros [= <-]; repeat split; cbn; congruence.
Qed.

(** ** The bound on what [search] returns, on every path *)

Lemma py_slice_to_length n v l w w' :
  py_slice_to n v w = (Ok l, w') → (length l ≤ n)%nat.
Proof.
  destruct v; try discriminate; intros [= <- _];
    rewrite length_take; lia.
Qed.

Lemma search_at_most_ten query w arts w' :
  SerpAPITool.search query w = (Ok arts, w') → (length arts ≤ 10)%nat.
Proof.
  unfold SerpAPITool.search. intros Hrun.
  apply bind_inv_ok in Hrun as (api_key & w1 & _ & Hrun).
  destruct (negb (truthy_str api_key)); [discriminate |]. cbn zeta in Hrun.
  apply bind_inv_ok in Hrun as (r & w2 & _ & Hrun).
  destruct (status_code r =? 200)%Z; [| discriminate].
  apply bind_inv_ok in Hrun as (data & w3 & _ & Hrun).
  apply bind_inv_ok in Hrun as (results & w4 & _ & Hrun).
  apply bind_inv_ok in Hrun as (first10 & w5 & Hslice & Hrun).
  apply py_slice_to_length in Hslice.
  apply mapM_build_inv in Hrun as [_ Hall].
  apply Forall2_length in Hall. lia.
Qed.

(** ** The handler's paths *)

Lemma validation_reply_cases body :
  validation_reply body = Reply422 ∨
  validation_reply body = ReplyInternalServerError.
Proof.
  unfold validation_reply. destruct (from_option _ _ _); [by right | by left].
Qed.

Section HandlerPaths.

Variable agent : Task → M (option NewsResponse).

Lemma get_company_news_some input_data w nd w' :
  agent_do agent (news_task input_data) w = (Ok (Some nd), w') →
  get_company_news agent input_data w =
    (Ok (mk_NewsReport (company_name input_data) (articles nd)), w').
Proof.
  intros Ha. unfold get_company_news. cbn zeta.
  erewrite bind_ok; [| exact Ha]. reflexivity.
Qed.

Lemma get_company_news_none input_data w w' :
  agent_do agent (news_task input_data) w = (Ok None, w') →
  get_company_news agent input_data w =
    (Raise (HTTPException 500 "Failed to fetch company news."), w').
Proof.
  intros Ha. unfold get_company_news. cbn zeta.
  erewrite bind_ok; [| exact Ha]. reflexivity.
Qed.

Lemma get_company_news_ok_inv input_data w report w' :
  get_company_news agent input_data w = (Ok report, w') →
  ∃ nd, agent_do agent (news_task input_data) w = (Ok (Some nd), w') ∧
        report = mk_NewsReport (company_name input_data) (articles nd).
Proof.
  unfold get_company_news. cbn zeta. intros Hrun.
  apply bind_inv_ok in Hrun as ([nd|] & w1 & Ha & Hrun); [| discriminate].
  injection Hrun as <- <-. eauto.
Qed.

Lemma post_200_inv body w report w' :
  post_get_company_news agent body w = (Reply200 report, w') →
  ∃ input_data nd,
    CompanyInput_validate body = Some input_data ∧
    agent_do agent (news_task input_data) w = (Ok (Some nd), w') ∧
    report = mk_NewsReport (company_name input_data) (articles nd).
Proof.
  unfold post_get_company_news.
  destruct (CompanyInput_validate body) as [input_data|];
    [| destruct (validation_reply_cases body) as [-> | ->]; discriminate].
  destruct (get_company_news agent input_data w) as [[rep|e] w1] eqn:Hrun.
  - intros [= <- <-]. apply get_company_news_ok_inv in Hrun as (nd & ? & ?).
    eauto.
  - destruct e; discriminate.
Qed.

Lemma validate_inv body input_data :
  CompanyInput_validate body = Some input_data →
  ∃ d, body = Some (JObject d) ∧
       d !! "company_name" = Some (JString (company_name input_data)).
Proof.
  destruct body as [[| | | | | |d]|]; try discriminate. cbn.
  destruct (d !! "company_name") as [[]|] eqn:Hname; try discriminate.
  intros [= <-]. eauto.
Qed.

End HandlerPaths.

(** ** [build] against the specification's article *)

Lemma is_entry_built_spec d :
  is_entry (JObject d) = true → built d = Ok (spec_article d).
Proof.
  cbn. intros H. apply andb_prop in H as [H Hs].
  apply andb_prop in H as [Ht Hu].
  unfold field_ok in *. unfold built, spec_article, spec_field.
  destruct (d !! "title") as [[]|]; try discriminate;
  destruct (d !! "link") as [[]|]; try discriminate;
  destruct (d !! "snippet") as [[]|]; try discriminate; reflexivity.
Qed.

Lemma mapM_build_spec ds :
  Forall (λ d, is_entry (JObject d) = true) ds →
  ∀ w, mapM SerpAPITool.build (JObject <$> ds) w
       = (Ok (spec_article <$> ds), w).
Proof.
  induction 1 as [|d ds Hd _ IH]; intros w; [done |].
  assert (SerpAPITool.build (JObject d) w = (Ok (spec_article d), w)) as Hb
    by (by rewrite build_object, (is_entry_built_spec _ Hd)).
  cbn. erewrite bind_ok; [| apply Hb].
  erewrite bind_ok; [| apply IH]. done.
Qed.

(** ** Non-finite numbers and the validation reply *)



(** * The contract *)

Import SerpAPITool.

(** ** The search adapter *)

(** C1, as the code has it. On a 200 answer whose body decodes to a dict
    with result list [rs], when the first ten items of [rs] are the entries
    [ds] (dicts whose title, link and snippet, where present, are strings),
    [search] returns, after its one request, exactly the articles the
    specification describes for [ds], one per entry and in the order of
    [rs]: there are [min 10 (length rs)] of them, and the i-th is the
    article of the i-th item of [rs]. *)
Theorem search_first_ten query w key r d rs ds :
  has_key w key → answers w key query r →
  status_code r = 200 → json_body r = Some (JObject d) →
  result_list d = JArray rs →
  take 10 rs = JObject <$> ds →
  Forall (λ e, is_entry (JObject e) = true) ds →
  search query w =
    (Ok (spec_article <$> ds),
     record (EvPost (serper_request key query)) w) ∧
  length ds = Nat.min 10 (length rs) ∧
  ∀ (i : nat) e, ds !! i = Some e →
    rs !! i = Some (JObject e) ∧
    (spec_article <$> ds) !! i = Some (spec_article e).
Proof.
  intros Hk Ha Hs Hd Hrs Hten Hent. split; [| split].
  - rewrite (search_200 _ _ _ _ _ _ Hk Ha Hs Hd Hrs), Hten.
    by apply mapM_build_spec.
  - apply (f_equal length) in Hten.
    rewrite length_take, length_fmap in Hten. lia.
  - intros i e Hi. split; [| by rewrite list_lookup_fmap, Hi].
    assert (take 10 rs !! i = Some (JObject e)) as Hlook
      by (by rewrite Hten, list_lookup_fmap, Hi).
    by apply lookup_take_Some in Hlook as [Hlook _].
Qed.

Lemma search_first_ten_witness :
  search "Acme" Stub.twelve_world =
    (Ok (spec_article <$> (Sample.item_fields <$> take 10 Stub.twelve)),
     record (EvPost (serper_request "secret" "Acme")) Stub.twelve_world) ∧
  length (Sample.item_fields <$> take 10 Stub.twelve)
    = Nat.min 10 (length (Stub.item <$> Stub.twelve)) ∧
  ∀ (i : nat) e,
    (Sample.item_fields <$> take 10 Stub.twelve) !! i = Some e →
    (Stub.item <$> Stub.twelve) !! i = Some (JObject e) ∧
    (spec_article <$> (Sample.item_fields <$> take 10 Stub.twelve)) !! i
      = Some (spec_article e).
Proof.
  apply (search_first_ten "Acme" Stub.twelve_world "secret"
           (Stub.ok_body (Stub.item <$> Stub.twelve))
           {[ "organic" := JArray (Stub.item <$> Stub.twelve) ]}
           (Stub.item <$> Stub.twelve)
           (Sample.item_fields <$> take 10 Stub.twelve)).
  - split; [reflexivity | discriminate].
  - reflexivity.
  - reflexivity.
  - reflexivity.
  - vm_compute. reflexivity.
  - reflexivity.
  - repeat constructor.
Defined.

(** C1, as stated, fails: not every 200 answer makes [search] return.  One
    whose body is not JSON makes it raise the decoder's error, and one whose
    result list holds an entry with a [null] title makes it raise a
    validation error; no article comes back. *)
Lemma search_200_raises :
  status_code Sample.garbled = 200 ∧
  fst (search "Acme" Sample.garbled_world) = Raise JSONDecodeError ∧
  upstream Sample.null_title_world (serper_request "secret" "Acme")
    = Ok (Stub.ok_body [JObject {[ "title" := JNull;
                                   "link" := JString "https://example.org/x" ]}]) ∧
  fst (search "Acme" Sample.null_title_world)
    = Raise (ValidationError "News").
Proof. repeat split; vm_compute; reflexivity. Qed.

(** Twelve results upstream: the first ten come back, in order. *)
Example search_twelve :
  fst (search "Acme" Stub.twelve_world)
  = Ok (Stub.article <$> ["a"; "b"; "c"; "d"; "e"; "f"; "g"; "h"; "i"; "j"]).
Proof. vm_compute. reflexivity. Qed.



(** An entry without a link: the article's url is ["#"]. *)
Example search_linkless :
  fst (search "Acme" Stub.linkless_world)
  = Ok [mk_News "Acme grows" "#" "Record year"].
Proof. vm_compute. reflexivity. Qed.

(** C3. With no [SERPAPI_API_KEY] in the environment, [search] raises the
    configuration error, status 500 and its fixed message, and leaves the
    world as it found it: the log gains no request. *)
Theorem search_missing_key query w :
  environ w !! "SERPAPI_API_KEY" = None →
  search query w =
    (Raise (HTTPException 500 "SerpAPI API Key not found!"), w) ∧
  log (snd (search query w)) = log w.
Proof.
  intros Hk.
  assert (search query w =
            (Raise (HTTPException 500 "SerpAPI API Key not found!"), w))
    as Hrun by (apply search_no_key; by rewrite Hk).
  by rewrite Hrun.
Qed.

Lemma search_missing_key_witness :
  search "Acme" Stub.idle_world =
    (Raise (HTTPException 500 "SerpAPI API Key not found!"),
     Stub.idle_world) ∧
  log (snd (search "Acme" Stub.idle_world)) = log Stub.idle_world.
Proof.
  apply (search_missing_key "Acme" Stub.idle_world). reflexivity.
Defined.

(** An empty key is no key either. *)
Example search_empty_key :
  search "Acme" (Stub.world_of (Some "") Stub.bare)
  = (Raise (HTTPException 500 "SerpAPI API Key not found!"),
     Stub.world_of (Some "") Stub.bare).
Proof. apply search_no_key. reflexivity. Qed.

(** C4. On an answer whose status is not 200, and so on every answer whose
    status is not a success status, [search] raises, after its one request,
    an error of status 500 whose detail is the fixed prefix followed by the
    raw body of the answer. *)
Theorem search_upstream_failure query w key r :
  has_key w key → answers w key query r → status_code r ≠ 200 →
  ∃ detail,
    search query w =
      (Raise (HTTPException 500 detail),
       record (EvPost (serper_request key query)) w) ∧
    detail = "SerpAPI Request Failed: " +:+ text r ∧
    contains detail (text r).
Proof.
  intros Hk Ha Hs. eexists. split; [| split; [reflexivity |]].
  - by apply search_not_200.
  - apply contains_suffix.
Qed.

Lemma search_upstream_failure_witness :
  ∃ detail,
    search "Acme" Stub.down_world =
      (Raise (HTTPException 500 detail),
       record (EvPost (serper_request "secret" "Acme")) Stub.down_world) ∧
    detail = "SerpAPI Request Failed: " +:+ text Stub.unavailable ∧
    contains detail (text Stub.unavailable).
Proof.
  apply (search_upstream_failure "Acme" Stub.down_world "secret"
           Stub.unavailable).
  - split; [reflexivity | discriminate].
  - reflexivity.
  - vm_compute. discriminate.
Defined.

(** A 503 upstream. *)
Example search_503 :
  fst (search "Acme" Stub.down_world)
  = Raise (HTTPException 500 "SerpAPI Request Failed: Service Unavailable").
Proof. vm_compute. reflexivity. Qed.

(** C10. When the body decodes to a dict without ["organic"], a 200 answer
    makes [search] return the empty list; and whatever the body, an answer
    with any other status, 2xx or not, makes it raise the upstream error. *)
Theorem search_no_organic query w key r :
  has_key w key → answers w key query r →
  (∀ d, status_code r = 200 → json_body r = Some (JObject d) →
        d !! "organic" = None →
        search query w =
          (Ok [], record (EvPost (serper_request key query)) w)) ∧
  (status_code r ≠ 200 →
     search query w =
       (Raise (HTTPException 500 ("SerpAPI Request Failed: " +:+ text r)),
        record (EvPost (serper_request key query)) w)).
Proof.
  intros Hk Ha. split.
  - intros d Hs Hd Hnone.
    rewrite (search_200 query w key r d [] Hk Ha Hs Hd); [done |].
    unfold result_list. by rewrite Hnone.
  - by apply search_not_200.
Qed.

Lemma search_no_organic_witness :
  (∀ d, status_code Stub.bare = 200 →
        json_body Stub.bare = Some (JObject d) →
        d !! "organic" = None →
        search "Acme" Stub.bare_world =
          (Ok [],
           record (EvPost (serper_request "secret" "Acme")) Stub.bare_world)) ∧
  (status_code Stub.bare ≠ 200 →
     search "Acme" Stub.bare_world =
       (Raise (HTTPException 500
                 ("SerpAPI Request Failed: " +:+ text Stub.bare)),
        record (EvPost (serper_request "secret" "Acme")) Stub.bare_world)).
Proof.
  apply (search_no_organic "Acme" Stub.bare_world "secret" Stub.bare).
  - split; [reflexivity | discriminate].
  - reflexivity.
Defined.

Example search_bare :
  fst (search "Acme" Stub.bare_world) = Ok [].
Proof. vm_compute. reflexivity. Qed.

(** 201 is not 200. *)
Example search_201 :
  fst (search "Acme" (Stub.world_of (Some "secret") Stub.created))
  = Raise (HTTPException 500 "SerpAPI Request Failed: created").
Proof. vm_compute. reflexivity. Qed.

(** A supplied empty title stays empty. *)
Example search_untitled :
  fst (search "Acme" Stub.untitled_world)
  = Ok [mk_News "" "https://example.org/x" "No Description"].
Proof. vm_compute. reflexivity. Qed.

(** ** The handler *)

(** C5. When the agent leaves no structured response, the handler raises
    the error of status 500 with its fixed message, and the route answers
    with that error, not with a report. *)
Theorem empty_response_is_500 agent input_data w w' :
  agent_do agent (news_task input_data) w = (Ok None, w') →
  get_company_news agent input_data w =
    (Raise (HTTPException 500 "Failed to fetch company news."), w') ∧
  ∀ body, CompanyInput_validate body = Some input_data →
    post_get_company_news agent body w =
      (ReplyError 500 "Failed to fetch company news.", w').
Proof.
  intros Ha. pose proof (get_company_news_none _ _ _ _ Ha) as Hrun.
  split; [done |]. intros body Hv.
  unfold post_get_company_news. by rewrite Hv, Hrun.
Qed.

Lemma empty_response_is_500_witness :
  get_company_news (Stub.fixed_agent None) (mk_CompanyInput "Acme")
    Stub.idle_world =
    (Raise (HTTPException 500 "Failed to fetch company news."),
     record (EvAgentDo (news_task (mk_CompanyInput "Acme"))) Stub.idle_world) ∧
  ∀ body, CompanyInput_validate body = Some (mk_CompanyInput "Acme") →
    post_get_company_news (Stub.fixed_agent None) body Stub.idle_world =
      (ReplyError 500 "Failed to fetch company news.",
       record (EvAgentDo (news_task (mk_CompanyInput "Acme")))
         Stub.idle_world).
Proof.
  apply (empty_response_is_500 (Stub.fixed_agent None)
           (mk_CompanyInput "Acme") Stub.idle_world).
  reflexivity.
Defined.

(** A response object with no articles is a response all the same: the
    report goes out with an empty list. *)
Example no_articles_reported :
  fst (post_get_company_news
         (Stub.fixed_agent (Some (mk_NewsResponse [])))
         (Stub.body_of "Acme") Stub.idle_world)
  = Reply200 (mk_NewsReport "Acme" []).
Proof. vm_compute. reflexivity. Qed.



(** A body without a name that holds [NaN]: turned away all the same, with
    an internal server error for a reply. *)
Example nan_body_rejected :
  post_get_company_news Stub.relay_agent Sample.nan_elsewhere
    Stub.twelve_world
  = (ReplyInternalServerError, Stub.twelve_world).
Proof. vm_compute. reflexivity. Qed.


(** C7, as the code has it. The articles of a report are those of the
    agent's structured response, unchanged, so there are at most ten of
    them when the agent's response has at most ten; and what the search
    adapter returns never has more than ten. *)
Theorem report_articles_length :
  (∀ agent body w report w',
     post_get_company_news agent body w = (Reply200 report, w') →
     ∃ input_data nd,
       CompanyInput_validate body = Some input_data ∧
       agent_do agent (news_task input_data) w = (Ok (Some nd), w') ∧
       report_articles report = articles nd ∧
       (length (articles nd) ≤ 10 → length (report_articles report) ≤ 10)%nat) ∧
  (∀ query w arts w',
     search query w = (Ok arts, w') → (length arts ≤ 10)%nat).
Proof.
  split.
  - intros agent body w report w' Hrun.
    apply post_200_inv in Hrun as (input_data & nd & Hv & Ha & ->).
    exists input_data, nd. cbn. done.
  - apply search_at_most_ten.
Qed.

Lemma report_articles_length_witness :
  (length (Stub.article <$> take 10 Stub.twelve) ≤ 10)%nat.
Proof.
  destruct report_articles_length as [_ Hbound].
  apply (Hbound "Acme" Stub.twelve_world (Stub.article <$> take 10 Stub.twelve)
           (record (EvPost (serper_request "secret" "Acme"))
              Stub.twelve_world)).
  vm_compute. reflexivity.
Defined.

(** C7, as stated, fails: an agent whose response has eleven articles gets
    a report with eleven articles. *)
Lemma eleven_articles_reported :
  ∃ report,
    fst (post_get_company_news (Stub.fixed_agent (Some Stub.eleven))
           (Stub.body_of "Acme") Stub.idle_world) = Reply200 report ∧
    length (report_articles report) = 11%nat ∧
    ¬ (length (report_articles report) ≤ 10)%nat.
Proof.
  eexists. split; [vm_compute; reflexivity |]. cbn. split; [done | lia].
Qed.

(** C8, as the code has it. The articles of a report are those of the
    agent's structured response, unchanged; and every article [search]
    returns has a non-empty title, url and snippet when none of the first
    ten results supplies an empty string for one of them (a missing field
    gets its placeholder, a supplied string is copied as it is). *)
Theorem populated_articles :
  (∀ agent body w report w',
     post_get_company_news agent body w = (Reply200 report, w') →
     ∃ input_data nd,
       agent_do agent (news_task input_data) w = (Ok (Some nd), w') ∧
       report_articles report = articles nd) ∧
  (∀ query w key r d rs arts w',
     has_key w key → answers w key query r →
     status_code r = 200 → json_body r = Some (JObject d) →
     result_list d = JArray rs →
     search query w = (Ok arts, w') →
     (∀ e, e ∈ take 10 rs →
        supplies_nonempty e "title" ∧ supplies_nonempty e "link" ∧
        supplies_nonempty e "snippet") →
     Forall fully_populated arts).
Proof.
  split.
  - intros agent body w report w' Hrun.
    apply post_200_inv in Hrun as (input_data & nd & _ & Ha & ->).
    by exists input_data, nd.
  - intros query w key r d rs arts w' Hk Ha Hs Hd Hrs Hrun Hsup.
    pose proof (search_200_inv _ _ _ _ _ _ _ _ Hk Ha Hs Hd Hrs Hrun) as Hall.
    revert Hsup. generalize (take 10 rs) Hall. clear.
    induction 1 as [|e a es arts Hb _ IH]; intros Hsup; constructor.
    + destruct (Hsup e) as (Ht & Hu & Hsn); [by left |].
      by apply (built_populated e).
    + apply IH. intros e' He'. apply Hsup. by right.
Qed.

Lemma populated_articles_witness :
  Forall fully_populated [mk_News "Acme grows" "#" "Record year"].
Proof.
  destruct populated_articles as [_ Hpop].
  apply (Hpop "Acme" Stub.linkless_world "secret"
           (Stub.ok_body [JObject Stub.linkless])
           {[ "organic" := JArray [JObject Stub.linkless] ]}
           [JObject Stub.linkless] [mk_News "Acme grows" "#" "Record year"]
           (record (EvPost (serper_request "secret" "Acme"))
              Stub.linkless_world)).
  - split; [reflexivity | discriminate].
  - reflexivity.
  - reflexivity.
  - reflexivity.
  - vm_compute. reflexivity.
  - vm_compute. reflexivity.
  - intros e He. apply list_elem_of_singleton in He as ->.
    repeat split; intros d [= <-]; vm_compute; discriminate.
Defined.

(** C8, as stated, fails: an empty title supplied upstream reaches the
    report through an agent that relays the adapter's findings, and an agent
    may hand back an article with empty fields without any search. *)
Lemma empty_fields_reported :
  fst (post_get_company_news Stub.relay_agent (Stub.body_of "Acme")
         Stub.untitled_world)
    = Reply200 (mk_NewsReport "Acme"
                  [mk_News "" "https://example.org/x" "No Description"]) ∧
  ¬ fully_populated (mk_News "" "https://example.org/x" "No Description") ∧
  fst (post_get_company_news
         (Stub.fixed_agent (Some (mk_NewsResponse [mk_News "" "" ""])))
         (Stub.body_of "Acme") Stub.idle_world)
    = Reply200 (mk_NewsReport "Acme" [mk_News "" "" ""]) ∧
  ¬ fully_populated (mk_News "" "" "").
Proof.
  split; [vm_compute; reflexivity |].
  split; [intros [Ht _]; by apply Ht |].
  split; [vm_compute; reflexivity |].
  intros [Ht _]; by apply Ht.
Qed.

(** C9. The company name of a report is the string the request body holds
    under ["company_name"]. *)
Theorem report_company_name_is_requested agent body w report w' :
  post_get_company_news agent body w = (Reply200 report, w') →
  ∃ d, body = Some (JObject d) ∧
       d !! "company_name" = Some (JString (report_company_name report)).
Proof.
  intros Hrun.
  apply post_200_inv in Hrun as (input_data & nd & Hv & _ & ->).
  by apply validate_inv in Hv.
Qed.

Lemma report_company_name_is_requested_witness :
  ∃ d, Stub.body_of "Acme" = Some (JObject d) ∧
       d !! "company_name" = Some (JString "Acme").
Proof.
  apply (report_company_name_is_requested
           (Stub.fixed_agent (Some Stub.eleven)) (Stub.body_of "Acme")
           Stub.idle_world
           (mk_NewsReport "Acme" (articles Stub.eleven))
           (record (EvAgentDo (news_task (mk_CompanyInput "Acme")))
              Stub.idle_world)).
  vm_compute. reflexivity.
Defined.

(** * Further properties of the search adapter *)

(** ** Computations that leave the world alone *)

Lemma bind_inv_raise {A B} (m : M A) (k : A → M B) w e w2 :
  (m ≫= k) w = (Raise e, w2) →
  m w = (Raise e, w2) ∨ ∃ a w1, m w = (Ok a, w1) ∧ k a w1 = (Raise e, w2).
Proof.
  unfold mbind, M_bind, bind.
  destruct (m w) as [[a|e'] w1]; intros Hrun; [right; eauto |].
  injection Hrun as -> ->. by left.
Qed.

Lemma reads_nothing_ret {A} (a : A) : reads_nothing (mret a).
Proof. exists (Ok a). intros w. reflexivity. Qed.

Lemma reads_nothing_raise {A} e : reads_nothing (@raise A e).
Proof. exists (Raise e). intros w. reflexivity. Qed.

Lemma reads_nothing_bind {A B} (m : M A) (k : A → M B) :
  reads_nothing m → (∀ a, reads_nothing (k a)) → reads_nothing (m ≫= k).
Proof.
  intros [[a|e] Hm] Hk.
  - destruct (Hk a) as [res Hres]. exists res. intros w.
    erewrite bind_ok; [apply Hres | apply Hm].
  - exists (Raise e). intros w. erewrite bind_raise; [done | apply Hm].
Qed.

Lemma reads_nothing_world {A} (m : M A) w : reads_nothing m → snd (m w) = w.
Proof. intros [res Hm]. by rewrite Hm. Qed.

Lemma reads_nothing_result {A} (m : M A) w1 w2 :
  reads_nothing m → fst (m w1) = fst (m w2).
Proof. intros [res Hm]. by rewrite !Hm. Qed.

Lemma py_get_reads_nothing v key dflt : reads_nothing (py_get v key dflt).
Proof. destruct v; (apply reads_nothing_raise || apply reads_nothing_ret). Qed.

Lemma py_slice_to_reads_nothing n v : reads_nothing (py_slice_to n v).
Proof. destruct v; (apply reads_nothing_raise || apply reads_nothing_ret). Qed.

Lemma response_json_reads_nothing r : reads_nothing (response_json r).
Proof.
  unfold response_json.
  destruct (json_body r); (apply reads_nothing_raise || apply reads_nothing_ret).
Qed.

Lemma build_reads_nothing e : reads_nothing (build e).
Proof. apply build_pure. Qed.

Lemma mapM_build_reads_nothing l : reads_nothing (mapM build l).
Proof.
  induction l as [|e l IH]; cbn.
  - apply reads_nothing_ret.
  - apply reads_nothing_bind; [apply build_reads_nothing |]. intros a.
    apply reads_nothing_bind; [apply IH |]. intros arts.
    apply reads_nothing_ret.
Qed.

Lemma answered_reads_nothing r : reads_nothing (answered r).
Proof.
  unfold answered. destruct (status_code r =? 200)%Z.
  - apply reads_nothing_bind; [apply response_json_reads_nothing |].
    intros data.
    apply reads_nothing_bind; [apply py_get_reads_nothing |]. intros rs.
    apply reads_nothing_bind; [apply py_slice_to_reads_nothing |].
    intros first10. apply mapM_build_reads_nothing.
  - apply reads_nothing_raise.
Qed.

(** ** [search] with a key: the request, then [answered] *)

Lemma search_keyed query w key :
  has_key w key →
  search query w =
    match upstream w (serper_request key query) with
    | Ok r => answered r (record (EvPost (serper_request key query)) w)
    | Raise e => (Raise e, record (EvPost (serper_request key query)) w)
    end.
Proof.
  intros Hk. pose proof (has_key_truthy _ _ Hk) as Ht.
  destruct Hk as [Hk _]. unfold search.
  erewrite bind_ok; [| reflexivity]. rewrite Ht, Hk. cbn [negb default from_option]. unfold id.
  fold (serper_request key query).
  destruct (upstream w (serper_request key query)) as [r|e] eqn:Hup.
  - erewrite bind_ok; [reflexivity |].
    unfold requests_post. cbn zeta. fold (serper_request key query).
    by rewrite Hup.
  - erewrite bind_raise; [reflexivity |].
    unfold requests_post. cbn zeta. fold (serper_request key query).
    by rewrite Hup.
Qed.

Lemma search_keyed_world query w key :
  has_key w key →
  snd (search query w) = record (EvPost (serper_request key query)) w.
Proof.
  intros Hk. rewrite (search_keyed _ _ _ Hk).
  destruct (upstream w (serper_request key query)) as [r|e]; [| done].
  apply reads_nothing_world, answered_reads_nothing.
Qed.

Lemma answered_200 r d w :
  status_code r = 200 → json_body r = Some (JObject d) →
  answered r w =
    (first10 ← py_slice_to 10 (result_list d); mapM build first10) w.
Proof.
  intros Hs Hd. unfold answered, response_json. rewrite Hs, Hd.
  cbn [Z.eqb Pos.eqb].
  erewrite bind_ok; [| reflexivity].
  erewrite bind_ok; [| reflexivity]. done.
Qed.

(** ** What the comprehension accepts *)

Lemma built_from_is_entry e a : built_from e a → is_entry e = true.
Proof.
  intros Hb. destruct (built_from_is_object _ _ Hb) as [d ->].
  apply built_from_object in Hb. revert Hb. unfold built. cbn.
  unfold field_ok.
  destruct (d !! "title") as [[]|]; try discriminate;
  destruct (d !! "link") as [[]|]; try discriminate;
  destruct (d !! "snippet") as [[]|]; try discriminate; done.
Qed.

Lemma mapM_build_ok_entries l arts w w' :
  mapM build l w = (Ok arts, w') → Forall (λ e, is_entry e = true) l.
Proof.
  intros Hrun. apply mapM_build_inv in Hrun as [_ Hall].
  induction Hall as [|e a l arts Hb _ IH]; constructor; [| done].
  by apply built_from_is_entry in Hb.
Qed.

Lemma build_raise e w ex w' :
  build e w = (Raise ex, w') →
  ex = AttributeError "get" ∨ ex = ValidationError "News".
Proof.
  destruct e as [| | | | | |d]; try (intros [= <- _]; by left).
  rewrite build_object. unfold built.
  destruct (d !! "title") as [[]|], (d !! "link") as [[]|],
    (d !! "snippet") as [[]|]; cbn; intros Hb; try discriminate;
    injection Hb as <- _; by right.
Qed.

Lemma mapM_build_raise l : ∀ w ex w',
  mapM build l w = (Raise ex, w') →
  ex = AttributeError "get" ∨ ex = ValidationError "News".
Proof.
  induction l as [|e l IH]; intros w ex w' Hrun; cbn in Hrun;
    [discriminate |].
  apply bind_inv_raise in Hrun as [Hb | (a & w1 & _ & Hrun)].
  - by apply build_raise in Hb.
  - apply bind_inv_raise in Hrun as [Hrest | (arts & w2 & _ & Hret)].
    + by apply IH in Hrest.
    + discriminate.
Qed.

Lemma chars_nil s : chars s = [] → s = "".
Proof. by destruct s. Qed.

Lemma chars_not_entries s :
  Forall (λ e, is_entry e = true) (take 10 (chars s)) → s = "".
Proof.
  destruct s as [|c s]; [done |]. cbn. intros H.
  apply Forall_cons in H as [H _]. discriminate.
Qed.

(** ** The request *)

(** X1. With a usable key, [search] leaves the world with exactly one more
    log entry than it found, the request to the search endpoint carrying
    that key and the query, whatever the upstream then answers and whether
    [search] returns or raises; environment and upstream are untouched. *)
Theorem search_sends_one_request query w key :
  has_key w key →
  snd (search query w) = record (EvPost (serper_request key query)) w ∧
  log (snd (search query w))
    = (log w ++ [EvPost (serper_request key query)])%list ∧
  environ (snd (search query w)) = environ w.
Proof.
  intros Hk. by rewrite (search_keyed_world _ _ _ Hk).
Qed.

Lemma search_sends_one_request_witness :
  snd (search "Acme" Stub.down_world)
    = record (EvPost (serper_request "secret" "Acme")) Stub.down_world ∧
  log (snd (search "Acme" Stub.down_world))
    = (log Stub.down_world ++ [EvPost (serper_request "secret" "Acme")])%list ∧
  environ (snd (search "Acme" Stub.down_world)) = environ Stub.down_world.
Proof.
  apply (search_sends_one_request "Acme" Stub.down_world "secret").
  split; [reflexivity | discriminate].
Defined.

(** X2. [search] sends nothing exactly when the key is missing or empty:
    the log is as it was if and only if [SERPAPI_API_KEY] is unset or set
    to the empty string. *)
Theorem search_silent_iff_no_key query w :
  log (snd (search query w)) = log w ↔
  environ w !! "SERPAPI_API_KEY" = None ∨
  environ w !! "SERPAPI_API_KEY" = Some "".
Proof.
  destruct (environ w !! "SERPAPI_API_KEY") as [k|] eqn:Hk.
  - destruct (decide (k = "")) as [-> | Hne].
    + rewrite search_no_key by (by rewrite Hk). split; [by right | done].
    + assert (has_key w k) as Hkey by done.
      rewrite (search_keyed_world _ _ _ Hkey). cbn. split.
      * intros Hlog. apply (f_equal length) in Hlog.
        rewrite length_app in Hlog. cbn in Hlog. lia.
      * intros [? | ?]; congruence.
  - rewrite search_no_key by (by rewrite Hk). split; [by left | done].
Qed.

(** An empty key: the configuration error, and no request. *)
Example search_empty_key_world :
  search "Acme" Sample.empty_key_world
  = (Raise (HTTPException 500 "SerpAPI API Key not found!"),
     Sample.empty_key_world).
Proof. apply search_no_key. reflexivity. Qed.

(** X3. When the transport raises instead of answering, [search] raises
    that very exception, not an [HTTPException] of its own; the request is
    in the log. *)
Theorem search_transport_error query w key e :
  has_key w key →
  upstream w (serper_request key query) = Raise e →
  search query w = (Raise e, record (EvPost (serper_request key query)) w).
Proof.
  intros Hk Hup. by rewrite (search_keyed _ _ _ Hk), Hup.
Qed.

Lemma search_transport_error_witness :
  search "Acme" Sample.offline_world
  = (Raise (RequestException "offline"),
     record (EvPost (serper_request "secret" "Acme")) Sample.offline_world).
Proof.
  apply (search_transport_error "Acme" Sample.offline_world "secret").
  - split; [reflexivity | discriminate].
  - reflexivity.
Defined.

(** ** The errors *)

Lemma answered_200_no_http r w s d w' :
  status_code r = 200 → answered r w ≠ (Raise (HTTPException s d), w').
Proof.
  intros Hs Hrun. unfold answered in Hrun. rewrite Hs in Hrun.
  cbn [Z.eqb Pos.eqb] in Hrun.
  apply bind_inv_raise in Hrun as [Hj | (data & w1 & _ & Hrun)].
  { unfold response_json in Hj. destruct (json_body r); discriminate. }
  apply bind_inv_raise in Hrun as [Hg | (rs & w2 & _ & Hrun)].
  { destruct data; discriminate. }
  apply bind_inv_raise in Hrun as [Hsl | (first10 & w3 & _ & Hrun)].
  { destruct rs; discriminate. }
  apply mapM_build_raise in Hrun as [? | ?]; discriminate.
Qed.

(** X4. Once the upstream has answered, the only [HTTPException] [search]
    raises is the upstream error: its status is 500, the answer's status was
    not 200, and its detail is the fixed prefix followed by the answer's
    body.  Whatever is wrong with the payload of a 200 answer surfaces as
    another kind of exception. *)
Theorem search_http_errors query w key r s d :
  has_key w key → answers w key query r →
  fst (search query w) = Raise (HTTPException s d) →
  s = 500 ∧ status_code r ≠ 200 ∧
  d = "SerpAPI Request Failed: " +:+ text r.
Proof.
  intros Hk Ha. rewrite (search_keyed _ _ _ Hk), Ha.
  destruct (decide (status_code r = 200)) as [Hs | Hs].
  - destruct (answered r _) as [res w'] eqn:Hrun. cbn. intros ->.
    by apply answered_200_no_http in Hrun.
  - unfold answered. apply Z.eqb_neq in Hs as Hs'. rewrite Hs'.
    cbn. intros [= <- <-]. done.
Qed.

Lemma search_http_errors_witness :
  500 = 500 ∧ status_code Stub.unavailable ≠ 200 ∧
  "SerpAPI Request Failed: Service Unavailable"
    = "SerpAPI Request Failed: " +:+ text Stub.unavailable.
Proof.
  apply (search_http_errors "Acme" Stub.down_world "secret" Stub.unavailable
           500 "SerpAPI Request Failed: Service Unavailable").
  - split; [reflexivity | discriminate].
  - reflexivity.
  - vm_compute. reflexivity.
Defined.

(** X5. A 200 answer whose body is not JSON makes [search] raise the
    decoder's error, and one whose body decodes to anything but a dict makes
    it raise an attribute error: neither is turned into an
    [HTTPException]. *)
Theorem search_bad_payload query w key r :
  has_key w key → answers w key query r → status_code r = 200 →
  (json_body r = None → fst (search query w) = Raise JSONDecodeError) ∧
  (∀ v, json_body r = Some v → (∀ d, v ≠ JObject d) →
        fst (search query w) = Raise (AttributeError "get")).
Proof.
  intros Hk Ha Hs. unfold answers in Ha.
  rewrite (search_keyed _ _ _ Hk), Ha.
  unfold answered, response_json. rewrite Hs. cbn [Z.eqb Pos.eqb]. split.
  - intros ->. by erewrite bind_raise.
  - intros v Hbody Hv. rewrite Hbody. erewrite bind_ok; [| reflexivity].
    erewrite bind_raise; [done |].
    destruct v; try reflexivity. by destruct (Hv d).
Qed.

Lemma search_bad_payload_witness :
  (json_body Sample.garbled = None →
     fst (search "Acme" Sample.garbled_world) = Raise JSONDecodeError) ∧
  (∀ v, json_body Sample.garbled = Some v → (∀ d, v ≠ JObject d) →
        fst (search "Acme" Sample.garbled_world)
          = Raise (AttributeError "get")).
Proof.
  apply (search_bad_payload "Acme" Sample.garbled_world "secret"
           Sample.garbled).
  - split; [reflexivity | discriminate].
  - reflexivity.
  - reflexivity.
Defined.

(** A 200 answer whose body is a JSON list. *)
Example search_listed :
  fst (search "Acme" Sample.listed_world) = Raise (AttributeError "get").
Proof. vm_compute. reflexivity. Qed.

(** ** When [search] returns *)

(** X6. Once the upstream has answered, [search] returns a list exactly
    when the status is 200, the body decodes to a dict, and the dict's
    result list is either a list whose first ten items are entries or the
    empty string (which slices to nothing); in every other case it
    raises. *)
Theorem search_returns_iff query w key r :
  has_key w key → answers w key query r →
  (∃ arts, fst (search query w) = Ok arts) ↔
  status_code r = 200 ∧
  ∃ d, json_body r = Some (JObject d) ∧
       ((∃ rs, result_list d = JArray rs ∧
               Forall (λ e, is_entry e = true) (take 10 rs)) ∨
        result_list d = JString "").
Proof.
  intros Hk Ha. unfold answers in Ha. rewrite (search_keyed _ _ _ Hk), Ha.
  split.
  - intros [arts Hrun].
    destruct (answered r _) as [res w'] eqn:Hans. cbn in Hrun. subst res.
    unfold answered in Hans.
    destruct (Z.eqb_spec (status_code r) 200) as [Hs | Hs]; [| discriminate].
    split; [done |].
    apply bind_inv_ok in Hans as (data & w1 & Hj & Hans).
    apply bind_inv_ok in Hans as (results & w2 & Hg & Hans).
    apply bind_inv_ok in Hans as (first10 & w3 & Hsl & Hans).
    apply mapM_build_ok_entries in Hans.
    unfold response_json in Hj.
    destruct (json_body r) as [v|]; [| discriminate]. injection Hj as -> _.
    destruct data as [| | | | | |d]; try discriminate.
    injection Hg as <- _. exists d. split; [done |]. fold (result_list d) in *.
    destruct (result_list d) as [| | | |s|rs|]; try discriminate;
      injection Hsl as <- _.
    + right. by rewrite (chars_not_entries _ Hans).
    + left. eauto.
  - intros (Hs & d & Hd & Hres).
    rewrite (answered_200 _ _ _ Hs Hd).
    destruct Hres as [(rs & -> & Hent) | ->].
    + erewrite bind_ok; [| reflexivity].
      destruct (mapM_build_entries _ Hent) as [arts Harts].
      exists arts. by rewrite Harts.
    + by exists [].
Qed.

Lemma search_returns_iff_witness :
  (∃ arts, fst (search "Acme" Stub.twelve_world) = Ok arts) ↔
  status_code (Stub.ok_body (Stub.item <$> Stub.twelve)) = 200 ∧
  ∃ d, json_body (Stub.ok_body (Stub.item <$> Stub.twelve))
         = Some (JObject d) ∧
       ((∃ rs, result_list d = JArray rs ∧
               Forall (λ e, is_entry e = true) (take 10 rs)) ∨
        result_list d = JString "").
Proof.
  apply (search_returns_iff "Acme" Stub.twelve_world "secret"
           (Stub.ok_body (Stub.item <$> Stub.twelve))).
  - split; [reflexivity | discriminate].
  - reflexivity.
Defined.

(** The empty string for a result list: nothing to iterate over. *)
Example search_organic_empty_string :
  fst (search "Acme"
         (Stub.world_of (Some "secret")
            (mk_response 200 "{}"
               (Some (JObject {[ "organic" := JString "" ]})))))
  = Ok [].
Proof. vm_compute. reflexivity. Qed.

(** [null] for a result list cannot be sliced. *)
Example search_organic_null :
  fst (search "Acme"
         (Stub.world_of (Some "secret")
            (mk_response 200 "{}" (Some (JObject {[ "organic" := JNull ]})))))
  = Raise (TypeError "slice").
Proof. vm_compute. reflexivity. Qed.

(** X7. The article built from an entry depends on its title, link and
    snippet alone: entries that agree on these three keys give the same
    outcome, whatever else they hold. *)
Theorem build_reads_three_keys (d d' : gmap string json) w :
  d !! "title" = d' !! "title" → d !! "link" = d' !! "link" →
  d !! "snippet" = d' !! "snippet" →
  build (JObject d) w = build (JObject d') w.
Proof.
  intros Ht Hu Hs. rewrite !build_object. unfold built.
  by rewrite Ht, Hu, Hs.
Qed.

Lemma build_reads_three_keys_witness :
  build (JObject Sample.annotated) Stub.idle_world
  = build (JObject Stub.linkless) Stub.idle_world.
Proof.
  apply (build_reads_three_keys Sample.annotated Stub.linkless
           Stub.idle_world); vm_compute; reflexivity.
Defined.

(** X8. Nothing is cached: a second [search] for the same query, run in the
    world the first one left, has the same outcome as the first and sends
    the same request again, so the log holds it twice. *)
Theorem search_twice query w key :
  has_key w key →
  fst (search query (snd (search query w))) = fst (search query w) ∧
  log (snd (search query (snd (search query w))))
    = (log w ++ [EvPost (serper_request key query);
                 EvPost (serper_request key query)])%list.
Proof.
  intros Hk. rewrite (search_keyed_world _ _ _ Hk).
  set (w1 := record (EvPost (serper_request key query)) w).
  assert (has_key w1 key) as Hk1 by exact Hk. split.
  - rewrite (search_keyed _ _ _ Hk), (search_keyed _ _ _ Hk1).
    change (upstream w1) with (upstream w).
    destruct (upstream w (serper_request key query)) as [r|e]; [| done].
    apply reads_nothing_result, answered_reads_nothing.
  - rewrite (search_keyed_world _ _ _ Hk1). cbn. by rewrite <- app_assoc.
Qed.

Lemma search_twice_witness :
  fst (search "Acme" (snd (search "Acme" Stub.twelve_world)))
    = fst (search "Acme" Stub.twelve_world) ∧
  log (snd (search "Acme" (snd (search "Acme" Stub.twelve_world))))
    = (log Stub.twelve_world ++
         [EvPost (serper_request "secret" "Acme");
          EvPost (serper_request "secret" "Acme")])%list.
Proof.
  apply (search_twice "Acme" Stub.twelve_world "secret").
  split; [reflexivity | discriminate].
Defined.

(** X9. Only the first ten results are read: two 200 answers whose result
    lists agree on their first ten items give [search] the same outcome,
    whatever follows the tenth item and whatever the query was. *)
Theorem search_reads_first_ten query query' w w' key key' r r' d d' rs rs' :
  has_key w key → answers w key query r →
  status_code r = 200 → json_body r = Some (JObject d) →
  result_list d = JArray rs →
  has_key w' key' → answers w' key' query' r' →
  status_code r' = 200 → json_body r' = Some (JObject d') →
  result_list d' = JArray rs' →
  take 10 rs = take 10 rs' →
  fst (search query w) = fst (search query' w').
Proof.
  intros Hk Ha Hs Hd Hrs Hk' Ha' Hs' Hd' Hrs' Hten.
  rewrite (search_200 _ _ _ _ _ _ Hk Ha Hs Hd Hrs).
  rewrite (search_200 _ _ _ _ _ _ Hk' Ha' Hs' Hd' Hrs').
  rewrite Hten. apply reads_nothing_result, mapM_build_reads_nothing.
Qed.

Lemma search_reads_first_ten_witness :
  fst (search "Acme" Stub.twelve_world)
  = fst (search "Acme Corp" Sample.ten_world).
Proof.
  apply (search_reads_first_ten "Acme" "Acme Corp"
           Stub.twelve_world Sample.ten_world "secret" "secret"
           (Stub.ok_body (Stub.item <$> Stub.twelve))
           (Stub.ok_body (Stub.item <$> take 10 Stub.twelve))
           {[ "organic" := JArray (Stub.item <$> Stub.twelve) ]}
           {[ "organic" := JArray (Stub.item <$> take 10 Stub.twelve) ]}
           (Stub.item <$> Stub.twelve)
           (Stub.item <$> take 10 Stub.twelve)).
  - split; [reflexivity | discriminate].
  - reflexivity.
  - reflexivity.
  - reflexivity.
  - vm_compute. reflexivity.
  - split; [reflexivity | discriminate].
  - reflexivity.
  - reflexivity.
  - reflexivity.
  - vm_compute. reflexivity.
  - reflexivity.
Defined.

(** * Further properties of the handler *)

Lemma get_company_news_raise agent input_data w e w' :
  agent_do agent (news_task input_data) w = (Raise e, w') →
  get_company_news agent input_data w = (Raise e, w').
Proof.
  intros Ha. unfold get_company_news. cbn zeta.
  erewrite bind_raise; [reflexivity | exact Ha].
Qed.

Lemma get_company_news_world agent input_data w :
  snd (get_company_news agent input_data w)
  = snd (agent_do agent (news_task input_data) w).
Proof.
  destruct (agent_do agent (news_task input_data) w) as [[[nd|]|e] w'] eqn:Ha.
  - by rewrite (get_company_news_some _ _ _ _ _ Ha).
  - by rewrite (get_company_news_none _ _ _ _ Ha).
  - by rewrite (get_company_news_raise _ _ _ _ _ Ha).
Qed.

(** X10. The handler catches nothing: an exception the agent raises, for
    one from a tool it ran, comes out of the handler as it is, in the world
    the agent left.  The route then answers an [HTTPException] with its own
    status and detail and anything else with an internal server error. *)
Theorem agent_exception_propagates agent input_data w e w' :
  agent_do agent (news_task input_data) w = (Raise e, w') →
  get_company_news agent input_data w = (Raise e, w') ∧
  ∀ body, CompanyInput_validate body = Some input_data →
    post_get_company_news agent body w =
      (match e with
       | HTTPException status detail => ReplyError status detail
       | _ => ReplyInternalServerError
       end, w').
Proof.
  intros Ha. pose proof (get_company_news_raise _ _ _ _ _ Ha) as Hrun.
  split; [done |]. intros body Hv.
  unfold post_get_company_news. rewrite Hv, Hrun. by destruct e.
Qed.

Lemma agent_exception_propagates_witness :
  get_company_news Stub.relay_agent (mk_CompanyInput "Acme") Stub.idle_world
    = (Raise (HTTPException 500 "SerpAPI API Key not found!"),
       record (EvAgentDo (news_task (mk_CompanyInput "Acme")))
         Stub.idle_world) ∧
  ∀ body, CompanyInput_validate body = Some (mk_CompanyInput "Acme") →
    post_get_company_news Stub.relay_agent body Stub.idle_world =
      (ReplyError 500 "SerpAPI API Key not found!",
       record (EvAgentDo (news_task (mk_CompanyInput "Acme")))
         Stub.idle_world).
Proof.
  apply (agent_exception_propagates Stub.relay_agent
           (mk_CompanyInput "Acme") Stub.idle_world
           (HTTPException 500 "SerpAPI API Key not found!")).
  reflexivity.
Defined.

(** The adapter's upstream error, relayed by an agent. *)
Example relayed_upstream_error :
  fst (post_get_company_news Stub.relay_agent (Stub.body_of "Acme")
         Stub.down_world)
  = ReplyError 500 "SerpAPI Request Failed: Service Unavailable".
Proof. vm_compute. reflexivity. Qed.

(** A payload error in the adapter, relayed by an agent: no detail. *)
Example relayed_payload_error :
  fst (post_get_company_news Stub.relay_agent (Stub.body_of "Acme")
         Sample.garbled_world)
  = ReplyInternalServerError.
Proof. vm_compute. reflexivity. Qed.

Lemma route_world_valid agent body input_data w :
  CompanyInput_validate body = Some input_data →
  snd (post_get_company_news agent body w)
  = snd (agent_do agent (news_task input_data) w).
Proof.
  intros Hv. unfold post_get_company_news. rewrite Hv.
  rewrite <- get_company_news_world.
  destruct (get_company_news agent input_data w) as [[rep|e] w']; [done |].
  by destruct e.
Qed.

(** X11. The one effect of the route is the agent invocation: a rejected
    body leaves the world as it was, and for an accepted one the world
    after the reply is the world the agent left when started with that
    invocation logged, whether a report, an error or nothing came back.
    The handler itself sends no request. *)
Theorem route_only_invokes_agent agent body w :
  snd (post_get_company_news agent body w) =
    match CompanyInput_validate body with
    | None => w
    | Some input_data =>
        snd (agent (news_task input_data)
               (record (EvAgentDo (news_task input_data)) w))
    end.
Proof.
  destruct (CompanyInput_validate body) as [input_data|] eqn:Hv.
  - apply (route_world_valid _ _ _ _ Hv).
  - unfold post_get_company_news. by rewrite Hv.
Qed.

(** An agent that uses no tool: the log gains the invocation, no request. *)
Example quiet_agent_log :
  log (snd (post_get_company_news (Stub.fixed_agent (Some Stub.eleven))
              (Stub.body_of "Acme") Stub.twelve_world))
  = [EvAgentDo (news_task (mk_CompanyInput "Acme"))].
Proof. vm_compute. reflexivity. Qed.



(** A bare string for a body: 422.  [NaN] for a name: an internal server
    error. *)
Example string_body_rejected :
  post_get_company_news Stub.relay_agent (Some (JString "Acme"))
    Stub.twelve_world
  = (Reply422, Stub.twelve_world).
Proof. vm_compute. reflexivity. Qed.

Example nan_name_rejected :
  post_get_company_news Stub.relay_agent Sample.nan_name Stub.twelve_world
  = (ReplyInternalServerError, Stub.twelve_world).
Proof. vm_compute. reflexivity. Qed.

(** ** The task *)

Lemma append_inv_head (p a b : string) : p +:+ a = p +:+ b → a = b.
Proof.
  induction p as [|c p IH]; [done |].
  change (String c (p +:+ a) = String c (p +:+ b) → a = b).
  intros [= H]. by apply IH.
Qed.

Lemma append_length (a t : string) :
  String.length (a +:+ t) = (String.length a + String.length t)%nat.
Proof.
  induction a as [|c a IH]; [done |].
  change (S (String.length (a +:+ t))
          = S (String.length a + String.length t)). by rewrite IH.
Qed.

Lemma append_inv_tail (a b t : string) :
  String.length t = 1%nat → a +:+ t = b +:+ t → a = b.
Proof.
  intros Ht. revert b. induction a as [|c a IH]; intros [|c' b].
  - done.
  - change (t = String c' (b +:+ t) → "" = String c' b).
    intros H. apply (f_equal String.length) in H. cbn in H.
    rewrite append_length in H. lia.
  - change (String c (a +:+ t) = t → String c a = "").
    intros H. apply (f_equal String.length) in H. cbn in H.
    rewrite append_length in H. lia.
  - change (String c (a +:+ t) = String c' (b +:+ t) →
            String c a = String c' b).
    intros [= -> H]. by rewrite (IH b H).
Qed.

(** X13. The description of the task is the fixed opening, the company
    name as it is, and a full stop; so inputs with different company names
    get tasks with different descriptions. *)
Theorem news_task_tells_apart (a b : CompanyInput) :
  description (news_task a)
    = "Fetch the latest news about " +:+ company_name a +:+ "." ∧
  (company_name a ≠ company_name b →
   description (news_task a) ≠ description (news_task b)).
Proof.
  split; [reflexivity |].
  intros Hne H. apply Hne. unfold news_task in H. cbn in H.
  apply append_inv_head in H. by apply append_inv_tail in H.
Qed.

Lemma news_task_tells_apart_witness :
  description (news_task (mk_CompanyInput "Acme"))
    = "Fetch the latest news about Acme." ∧
  ("Acme" ≠ "Acme." →
   description (news_task (mk_CompanyInput "Acme"))
   ≠ description (news_task (mk_CompanyInput "Acme."))).
Proof.
  exact (news_task_tells_apart (mk_CompanyInput "Acme")
           (mk_CompanyInput "Acme.")).
Defined.

(** * Properties of the page script *)

(** ** Rendering *)

Lemma append_assoc (a b c : string) : (a +:+ b) +:+ c = a +:+ (b +:+ c).
Proof.
  induction a as [|x a IH]; [done |].
  change (String x ((a +:+ b) +:+ c) = String x (a +:+ (b +:+ c))).
  by rewrite IH.
Qed.

Lemma append_article_markup acc a :
  append_article acc a = acc +:+ article_markup a.
Proof. unfold append_article, article_markup. by rewrite append_assoc. Qed.

Lemma foldl_append_article arts : ∀ acc,
  foldl append_article acc arts = acc +:+ markup_all arts.
Proof.
  induction arts as [|a arts IH]; intros acc.
  - change (acc = acc +:+ ""). by rewrite append_empty_r.
  - change (foldl append_article (append_article acc a) arts
            = acc +:+ (article_markup a +:+ markup_all arts)).
    by rewrite IH, append_article_markup, append_assoc.
Qed.

Lemma markup_all_app xs ys :
  markup_all (xs ++ ys) = markup_all xs +:+ markup_all ys.
Proof.
  induction xs as [|a xs IH]; [done |].
  change (article_markup a +:+ markup_all (xs ++ ys)
          = (article_markup a +:+ markup_all xs) +:+ markup_all ys).
  by rewrite IH, append_assoc.
Qed.

Lemma render_markup arts :
  render arts = "<h2>Latest Articles:</h2>" +:+ markup_all arts.
Proof. apply foldl_append_article. Qed.

Lemma contains_inside (pre s t post : string) :
  contains s t → contains (pre +:+ s +:+ post) t.
Proof.
  intros (l & r & ->). exists (pre +:+ l), (r +:+ post).
  by rewrite !append_assoc.
Qed.

(** X14. What the loop accumulates is the heading followed by the markup of
    each article in turn, and nothing else: rendering a list that continues
    another appends the markup of the continuation to what was rendered. *)
Theorem render_is_concatenation (arts more : list News) :
  render arts = "<h2>Latest Articles:</h2>" +:+ markup_all arts ∧
  render (arts ++ more) = render arts +:+ markup_all more.
Proof.
  split; [apply render_markup |].
  by rewrite !render_markup, markup_all_app, append_assoc.
Qed.

(** X15. Titles and urls go into the markup as they are, with no escaping:
    for every article rendered, the container holds its title between the
    [<strong>] tags and its url between the quotes of the [href], character
    for character. *)
Theorem render_verbatim (arts : list News) (a : News) :
  a ∈ arts →
  contains (render arts) ("<strong>" +:+ title a +:+ "</strong>") ∧
  contains (render arts) ("href=" +:+ dquote +:+ url a +:+ dquote).
Proof.
  intros Ha. apply list_elem_of_split in Ha as (l1 & l2 & ->).
  rewrite render_markup, markup_all_app.
  change (markup_all (a :: l2))
    with (article_markup a +:+ markup_all l2). split.
  - rewrite <- (append_assoc _ (markup_all l1)).
    apply contains_inside with (pre := _ +:+ markup_all l1).
    unfold article_markup.
    exists "<p>", ("<br>" +:+
      ("<a href=" +:+ dquote +:+ url a +:+ dquote +:+ " target=" +:+
       dquote +:+ "_blank" +:+ dquote +:+ ">Read More</a></p>")).
    change ("<p><strong>" +:+ title a +:+ "</strong><br>")
      with ("<p>" +:+ ("<strong>" +:+ title a +:+ ("</strong>" +:+ "<br>"))).
    by rewrite !append_assoc.
  - rewrite <- (append_assoc _ (markup_all l1)).
    apply contains_inside with (pre := _ +:+ markup_all l1).
    unfold article_markup.
    exists ("<p><strong>" +:+ title a +:+ "</strong><br>" +:+ "<a "),
      (" target=" +:+ dquote +:+ "_blank" +:+ dquote +:+
       ">Read More</a></p>").
    change ("<a href=" +:+ dquote +:+ url a +:+ dquote +:+ " target=" +:+
            dquote +:+ "_blank" +:+ dquote +:+ ">Read More</a></p>")
      with ("<a " +:+ ("href=" +:+ dquote +:+ url a +:+ dquote +:+
            " target=" +:+ dquote +:+ "_blank" +:+ dquote +:+
            ">Read More</a></p>")).
    by rewrite !append_assoc.
Qed.

Lemma render_verbatim_witness :
  contains (render [Sample.scripted])
    ("<strong>" +:+ title Sample.scripted +:+ "</strong>") ∧
  contains (render [Sample.scripted])
    ("href=" +:+ dquote +:+ url Sample.scripted +:+ dquote).
Proof.
  apply (render_verbatim [Sample.scripted] Sample.scripted).
  apply list_elem_of_singleton. reflexivity.
Defined.

(** A title that is markup ends up in the container as markup. *)
Example render_scripted :
  render [Sample.scripted]
  = "<h2>Latest Articles:</h2><p><strong><script>alert(1)</script></strong><br><a href="
    +:+ dquote +:+ "https://example.org/x" +:+ dquote +:+ " target=" +:+
    dquote +:+ "_blank" +:+ dquote +:+ ">Read More</a></p>".
Proof. vm_compute. reflexivity. Qed.

(** X16. The snippet is not shown: lists of articles that agree, place by
    place, on title and url render to the same markup. *)
Theorem render_ignores_snippet (arts arts' : list News) :
  Forall2 (λ a b, title a = title b ∧ url a = url b) arts arts' →
  render arts = render arts'.
Proof.
  intros Hall. rewrite !render_markup. f_equal.
  induction Hall as [|a b arts arts' [Ht Hu] _ IH]; [done |].
  change (article_markup a +:+ markup_all arts
          = article_markup b +:+ markup_all arts').
  unfold article_markup. by rewrite Ht, Hu, IH.
Qed.

Lemma render_ignores_snippet_witness :
  render [mk_News "Acme grows" "#" "Record year"]
  = render [mk_News "Acme grows" "#" ""].
Proof.
  apply (render_ignores_snippet [mk_News "Acme grows" "#" "Record year"]
           [mk_News "Acme grows" "#" ""]).
  repeat constructor.
Defined.

(** ** One click *)

Lemma validate_stringify company :
  CompanyInput_validate (stringify_company company)
  = Some (mk_CompanyInput company).
Proof.
  unfold CompanyInput_validate, stringify_company.
  by rewrite lookup_singleton_eq.
Qed.

Lemma fetchCompanyNews_world agent p w :
  snd (fetchCompanyNews agent p w)
  = snd (post_get_company_news agent (stringify_company (company p)) w).
Proof.
  unfold fetchCompanyNews. cbn zeta.
  destruct (post_get_company_news _ _ _) as [[] w']; reflexivity.
Qed.

(** X17. Whatever the input box holds, the empty text included, the body
    the script posts passes validation, so a click always gets as far as
    the agent: the world after the click is the world the agent left when
    invoked on the task for that text. *)
Theorem click_reaches_agent agent p w :
  CompanyInput_validate (stringify_company (company p))
    = Some (mk_CompanyInput (company p)) ∧
  snd (fetchCompanyNews agent p w)
    = snd (agent (news_task (mk_CompanyInput (company p)))
             (record (EvAgentDo (news_task (mk_CompanyInput (company p))))
                w)).
Proof.
  split; [apply validate_stringify |].
  rewrite fetchCompanyNews_world.
  apply route_world_valid, validate_stringify.
Qed.

(** An empty input box. *)
Example click_with_empty_box :
  log (snd (fetchCompanyNews (Stub.fixed_agent None) (mk_page "" "")
              Stub.idle_world))
  = [EvAgentDo (news_task (mk_CompanyInput ""))].
Proof. vm_compute. reflexivity. Qed.

(** X18. When the promise is rejected the page is as it was: an error reply
    never reaches the results container, which keeps whatever an earlier
    click put there. *)
Theorem rejected_click_keeps_page agent p w e :
  fst (fst (fetchCompanyNews agent p w)) = Rejected e →
  snd (fst (fetchCompanyNews agent p w)) = p.
Proof.
  unfold fetchCompanyNews. cbn zeta.
  destruct (post_get_company_news _ _ _) as [[] w']; cbn;
    [discriminate | done..].
Qed.

Lemma rejected_click_keeps_page_witness :
  snd (fst (fetchCompanyNews (Stub.fixed_agent None) Sample.stale_page
              Stub.idle_world))
  = Sample.stale_page.
Proof.
  apply (rejected_click_keeps_page (Stub.fixed_agent None) Sample.stale_page
           Stub.idle_world JsTypeError).
  vm_compute. reflexivity.
Defined.

(** X19. The promise is fulfilled only when the agent left a structured
    response, and then the results container holds the rendering of that
    response's articles and nothing of what it held before; the input box
    is untouched. *)
Theorem fulfilled_click_renders agent p w :
  fst (fst (fetchCompanyNews agent p w)) = Fulfilled →
  ∃ nd w',
    agent_do agent (news_task (mk_CompanyInput (company p))) w
      = (Ok (Some nd), w') ∧
    fetchCompanyNews agent p w
      = (Fulfilled, mk_page (company p) (render (articles nd)), w').
Proof.
  unfold fetchCompanyNews. cbn zeta.
  destruct (post_get_company_news _ _ _) as [[rep| | |] w'] eqn:Hpost; cbn;
    try discriminate.
  intros _.
  apply post_200_inv in Hpost as (input_data & nd & Hv & Ha & ->).
  rewrite validate_stringify in Hv. injection Hv as <-.
  by exists nd, w'.
Qed.

Lemma fulfilled_click_renders_witness :
  ∃ nd w',
    agent_do Stub.relay_agent
      (news_task (mk_CompanyInput (company Sample.stale_page)))
      Stub.linkless_world = (Ok (Some nd), w') ∧
    fetchCompanyNews Stub.relay_agent Sample.stale_page Stub.linkless_world
      = (Fulfilled,
         mk_page (company Sample.stale_page) (render (articles nd)), w').
Proof.
  apply (fulfilled_click_renders Stub.relay_agent Sample.stale_page
           Stub.linkless_world).
  vm_compute. reflexivity.
Defined.

(** A click that replaces stale results. *)
Example click_replaces_results :
  results (snd (fst (fetchCompanyNews Stub.relay_agent Sample.stale_page
                       Stub.linkless_world)))
  = "<h2>Latest Articles:</h2><p><strong>Acme grows</strong><br><a href="
    +:+ dquote +:+ "#" +:+ dquote +:+ " target=" +:+ dquote +:+ "_blank"
    +:+ dquote +:+ ">Read More</a></p>".
Proof. vm_compute. reflexivity. Qed.
